(** * spot_driver_cpp: the image request builder and the image publisher

    A shallow embedding of
    [spot_driver_cpp/src/images/spot_image_publisher.cpp]:

    - [createImageRequest], the loop that fills a [GetImageRequest] with one
      [ImageRequest] per image source;
    - [SpotImagePublisher::initialize] and [SpotImagePublisher::timerCallback],
      written in a small monad that threads the publisher object and the
      image client, records every call made on a collaborator interface, and
      has an outcome for undefined behaviour (reading through an empty
      [std::optional]). *)

From Stdlib Require Import ZArith Floats.SpecFloat.
From stdpp Require Import base strings list gmap.

(** ** [double]

    The only operations the code performs on doubles are storing them and,
    for the timer period, one division of two literals; there is no rounding
    to reason about.  A [double] is the Standard Library's specification of
    an IEEE-754 float, at the binary64 precision. *)
Module Double.
Definition prec : Z := 53.
Definition emax : Z := 1024.

Definition double : Type := spec_float.

(** An integral literal such as [100.0]. *)
Definition of_Z (z : Z) : double := binary_normalize prec emax z 0 false.

Definition div (x y : double) : double := SFdiv prec emax x y.

(** The real value of a finite double is [m * 2 ^ e]; [scaled x k] is that
    value multiplied by [2 ^ k], when this is an integer. *)
Definition scaled (x : double) (k : Z) : option Z :=
  match x with
  | S754_zero _ => Some 0%Z
  | S754_finite s m e =>
      if decide (0 ≤ e + k)%Z
      then Some ((if s then Z.opp else id) (Z.pos m * 2 ^ (e + k)))%Z
      else None
  | _ => None
  end.
End Double.
Export Double(double).

(** ** The messages of the robot SDK ([bosdyn::api])

    Only the fields this code writes are kept; every other field of the
    protobuf messages keeps its default value throughout. *)
Module bosdyn.
Inductive Image_Format : Set :=
| Image_Format_FORMAT_UNKNOWN
| Image_Format_FORMAT_JPEG
| Image_Format_FORMAT_RAW
| Image_Format_FORMAT_RLE.

Inductive Image_PixelFormat : Set :=
| Image_PixelFormat_PIXEL_FORMAT_UNKNOWN
| Image_PixelFormat_PIXEL_FORMAT_GREYSCALE_U8
| Image_PixelFormat_PIXEL_FORMAT_RGB_U8
| Image_PixelFormat_PIXEL_FORMAT_RGBA_U8
| Image_PixelFormat_PIXEL_FORMAT_DEPTH_U16
| Image_PixelFormat_PIXEL_FORMAT_GREYSCALE_U16.

Record ImageRequest : Type := mkImageRequest {
  image_source_name : string;
  quality_percent : double;
  image_format : Image_Format;
  pixel_format : Image_PixelFormat
}.

(** A freshly added protobuf message has all its fields at their default. *)
Definition ImageRequest_default : ImageRequest :=
  {| image_source_name := EmptyString;
     quality_percent := S754_zero false;
     image_format := Image_Format_FORMAT_UNKNOWN;
     pixel_format := Image_PixelFormat_PIXEL_FORMAT_UNKNOWN |}.

Record GetImageRequest : Type := mkGetImageRequest {
  image_requests : list ImageRequest
}.

(** [GetImageRequest request_message;] *)
Definition GetImageRequest_default : GetImageRequest :=
  {| image_requests := [] |}.

(** [request_message.add_image_requests()] appends a default element to the
    repeated field and returns a pointer to it: here, its index. *)
Definition add_image_requests (m : GetImageRequest) : nat * GetImageRequest :=
  (length (image_requests m),
   {| image_requests := image_requests m ++ [ImageRequest_default] |}).

(** A write through such a pointer. *)
Definition through (p : nat) (f : ImageRequest → ImageRequest)
    (m : GetImageRequest) : GetImageRequest :=
  {| image_requests := alter f p (image_requests m) |}.

Definition set_image_source_name (p : nat) (v : string) :=
  through p (λ r, {| image_source_name := v;
                     quality_percent := quality_percent r;
                     image_format := image_format r;
                     pixel_format := pixel_format r |}).

Definition set_quality_percent (p : nat) (v : double) :=
  through p (λ r, {| image_source_name := image_source_name r;
                     quality_percent := v;
                     image_format := image_format r;
                     pixel_format := pixel_format r |}).

Definition set_pixel_format (p : nat) (v : Image_PixelFormat) :=
  through p (λ r, {| image_source_name := image_source_name r;
                     quality_percent := quality_percent r;
                     image_format := image_format r;
                     pixel_format := v |}).

Definition set_image_format (p : nat) (v : Image_Format) :=
  through p (λ r, {| image_source_name := image_source_name r;
                     quality_percent := quality_percent r;
                     image_format := v;
                     pixel_format := pixel_format r |}).
End bosdyn.
Import bosdyn.

(** ** Image sources

    [spot_driver_cpp/types.hpp] is not among the sources.  The file above
    tests [source.type] against [SpotImageType::RGB] and
    [SpotImageType::DEPTH] and names the remaining case
    [SpotImageType::DEPTH_REGISTERED].  The enumeration of cameras is never
    inspected by this file, so it stays a parameter. *)
Inductive SpotImageType : Set := RGB | DEPTH | DEPTH_REGISTERED.

#[global] Instance SpotImageType_eq_dec : EqDecision SpotImageType.
Proof. solve_decision. Defined.

#[global] Instance SpotImageType_countable : Countable SpotImageType.
Proof.
  refine (inj_countable'
            (λ t, match t with RGB => 0 | DEPTH => 1 | DEPTH_REGISTERED => 2 end)
            (λ n, match n with 0 => RGB | 1 => DEPTH | _ => DEPTH_REGISTERED end)
            _).
  by intros [].
Defined.

Record ImageSource (SpotCamera : Type) : Type := mkImageSource {
  camera : SpotCamera;
  type : SpotImageType
}.
Arguments mkImageSource {SpotCamera} _ _.
Arguments camera {SpotCamera} _.
Arguments type {SpotCamera} _.

#[global] Instance ImageSource_eq_dec `{EqDecision SpotCamera} :
  EqDecision (ImageSource SpotCamera).
Proof. solve_decision. Defined.

#[global] Instance ImageSource_countable `{Countable SpotCamera} :
  Countable (ImageSource SpotCamera).
Proof.
  refine (inj_countable' (λ s, (camera s, type s))
                         (λ p, mkImageSource p.1 p.2) _).
  by intros [].
Defined.

(** [constexpr auto kDefaultDepthImageQuality = 100.0;] *)
Definition kDefaultDepthImageQuality : double := Double.of_Z 100.

(** ** [createImageRequest] *)
Section RequestBuilder.
Context {SpotCamera : Type}.

(** [toSpotImageSourceName] is defined in [spot_image_sources.cpp], which is
    not among the sources; the builder only stores its result. *)
Variable toSpotImageSourceName : ImageSource SpotCamera → string.

(** One iteration of [for (const auto& source : sources)]. *)
Definition createImageRequest_body
    (rgb_image_quality : double) (get_raw_rgb_images : bool)
    (request_message : GetImageRequest) (source : ImageSource SpotCamera)
    : GetImageRequest :=
  let source_name := toSpotImageSourceName source in
  if decide (type source = RGB) then
    let '(image_request, request_message) := add_image_requests request_message in
    let request_message := set_image_source_name image_request source_name request_message in
    let request_message := set_quality_percent image_request rgb_image_quality request_message in
    let request_message :=
      set_pixel_format image_request Image_PixelFormat_PIXEL_FORMAT_RGB_U8 request_message in
    set_image_format image_request
      (if get_raw_rgb_images then Image_Format_FORMAT_RAW else Image_Format_FORMAT_JPEG)
      request_message
  else if decide (type source = DEPTH) then
    let '(image_request, request_message) := add_image_requests request_message in
    let request_message := set_image_source_name image_request source_name request_message in
    let request_message :=
      set_quality_percent image_request kDefaultDepthImageQuality request_message in
    set_image_format image_request Image_Format_FORMAT_RAW request_message
  else
    let '(image_request, request_message) := add_image_requests request_message in
    let request_message := set_image_source_name image_request source_name request_message in
    let request_message :=
      set_quality_percent image_request kDefaultDepthImageQuality request_message in
    set_image_format image_request Image_Format_FORMAT_RAW request_message.

(** [sources] is a [std::set<ImageSource>]; the function only iterates over
    it, so it is given here as the sequence of its elements in iteration
    order.  [has_rgb_cameras] is declared [[maybe_unused]]. *)
Definition createImageRequest
    (sources : list (ImageSource SpotCamera)) (has_rgb_cameras : bool)
    (rgb_image_quality : double) (get_raw_rgb_images : bool)
    : GetImageRequest :=
  foldl (createImageRequest_body rgb_image_quality get_raw_rgb_images)
        GetImageRequest_default sources.

(** *** What one iteration appends

    [image_request_of] is not a function of the program: it names the
    element that an iteration leaves at the end of the repeated field. *)
Definition image_request_of
    (rgb_image_quality : double) (get_raw_rgb_images : bool)
    (source : ImageSource SpotCamera) : ImageRequest :=
  match type source with
  | RGB =>
      {| image_source_name := toSpotImageSourceName source;
         quality_percent := rgb_image_quality;
         image_format := if get_raw_rgb_images then Image_Format_FORMAT_RAW
                         else Image_Format_FORMAT_JPEG;
         pixel_format := Image_PixelFormat_PIXEL_FORMAT_RGB_U8 |}
  | _ =>
      {| image_source_name := toSpotImageSourceName source;
         quality_percent := kDefaultDepthImageQuality;
         image_format := Image_Format_FORMAT_RAW;
         pixel_format := Image_PixelFormat_PIXEL_FORMAT_UNKNOWN |}
  end.

End RequestBuilder.

(** ** [tl::expected<T, E>] *)
Inductive expected (T E : Type) : Type :=
| value (t : T)
| unexpected (e : E).
Arguments value {T E} _.
Arguments unexpected {T E} _.

Definition has_value {T E} (x : expected T E) : bool :=
  match x with value _ => true | unexpected _ => false end.

(** ** How a member function ends *)
Inductive outcome (A : Type) : Type :=
| Returned (a : A)
| Undefined   (* undefined behaviour *)
| Thrown.     (* an exception left the function *)
Arguments Returned {A} _.
Arguments Undefined {A}.
Arguments Thrown {A}.

(** [namespace { constexpr auto kImageCallbackPeriod =
                 std::chrono::duration<double>{1.0 / 15.0}; }] *)
Definition kImageCallbackPeriod : double :=
  Double.div (Double.of_Z 1) (Double.of_Z 15).

(** ** The publisher and its collaborators *)
Section Publisher.
Context {SpotCamera : Type} `{Countable SpotCamera}.
(** The payloads carried from the image client to the middleware. *)
Context {ImageWithCameraInfo TransformStamped : Type}.
(** The state of whatever stands behind [ImageClientInterface]. *)
Context {ImageClient : Type}.

(** [struct GetImagesResult] of [types.hpp]: the fields [images_], a
    [std::map] keyed by image source, and [transforms_], a [std::vector]. *)
Record GetImagesResult : Type := mkGetImagesResult {
  images_ : gmap (ImageSource SpotCamera) ImageWithCameraInfo;
  transforms_ : list TransformStamped
}.

(** What [ParameterInterface] answers.  The values are read, never
    written. *)
Record ParameterInterface : Type := mkParameterInterface {
  getRGBImageQuality : double;
  getPublishRGBImages : bool;
  getPublishDepthImages : bool;
  getPublishDepthRegisteredImages : bool;
  getHasRGBCameras : bool
}.

(** The data members of [SpotImagePublisher] that are values;
    [image_client_interface_] and [middleware_handle_] are the
    collaborators below. *)
Record SpotImagePublisher : Type := mkSpotImagePublisher {
  has_arm_ : bool;
  image_request_message_ : option GetImageRequest
}.

(** The constructor leaves [image_request_message_] empty. *)
Definition SpotImagePublisher_new (has_arm : bool) : SpotImagePublisher :=
  {| has_arm_ := has_arm; image_request_message_ := None |}.

Record World : Type := mkWorld {
  this : SpotImagePublisher;
  parameter_interface : ParameterInterface;
  image_client_interface_ : ImageClient
}.

(** A call that leaves the publisher for a collaborator. *)
Inductive Call : Type :=
| LogError (message : string)
| GetImages (request : GetImageRequest)
| PublishImages (images : gmap (ImageSource SpotCamera) ImageWithCameraInfo)
| Publish (source : ImageSource SpotCamera) (image : ImageWithCameraInfo)
| UpdateStaticTransforms (transforms : list TransformStamped)
| CreatePublishers (sources : list (ImageSource SpotCamera))
| SetTimer (period : double).

(** A computation: from a world to an outcome, the world it leaves, and the
    calls it made, oldest first. *)
Definition M (A : Type) : Type := World → outcome A * World * list Call.

#[global] Instance M_ret : MRet M := λ A a w, (Returned a, w, []).

#[global] Instance M_bind : MBind M := λ A B k m w,
  match m w with
  | (Returned a, w1, calls1) =>
      let '(o, w2, calls2) := k a w1 in (o, w2, calls1 ++ calls2)
  | (Undefined, w1, calls1) => (Undefined, w1, calls1)
  | (Thrown, w1, calls1) => (Thrown, w1, calls1)
  end.

(** The world once the image client has moved to the state [client]. *)
Definition with_image_client (client : ImageClient) (w : World) : World :=
  {| this := this w;
     parameter_interface := parameter_interface w;
     image_client_interface_ := client |}.

(** The world once [image_request_message_] holds [request]. *)
Definition with_image_request_message (request : GetImageRequest) (w : World)
    : World :=
  {| this := {| has_arm_ := has_arm_ (this w);
                image_request_message_ := Some request |};
     parameter_interface := parameter_interface w;
     image_client_interface_ := image_client_interface_ w |}.

Definition call (c : Call) : M unit := λ w, (Returned (), w, [c]).

Definition parameter {A} (get : ParameterInterface → A) : M A :=
  λ w, (Returned (get (parameter_interface w)), w, []).

Definition member {A} (get : SpotImagePublisher → A) : M A :=
  λ w, (Returned (get (this w)), w, []).

(** [image_request_message_ = request;] *)
Definition assign_image_request_message_ (request : GetImageRequest) : M unit :=
  λ w, (Returned (), with_image_request_message request w, []).

(** [*o] on a [std::optional]: undefined when [o] is empty. *)
Definition deref {A} (o : option A) : M A :=
  λ w, match o with
       | Some a => (Returned a, w, [])
       | None => (Undefined, w, [])
       end.

(** [x.value()] on a [tl::expected] throws when [x] holds an error. *)
Definition value_of {T E} (x : expected T E) : M T :=
  λ w, match x with
       | value t => (Returned t, w, [])
       | unexpected _ => (Thrown, w, [])
       end.

(** [x.error()] on a [tl::expected]: undefined when [x] holds a value. *)
Definition error_of {T E} (x : expected T E) : M E :=
  λ w, match x with
       | unexpected e => (Returned e, w, [])
       | value _ => (Undefined, w, [])
       end.

(** *** The collaborators *)

(** [ImageClientInterface::getImages]: any function of the client's state
    and of the request. *)
Variable ImageClientInterface_getImages :
  ImageClient → GetImageRequest → expected GetImagesResult string * ImageClient.

(** [createImageSources] and [toSpotImageSourceName] are defined in
    [spot_image_sources.cpp], which is not among the sources. *)
Variable createImageSources : bool → bool → bool → bool → list (ImageSource SpotCamera).
Variable toSpotImageSourceName : ImageSource SpotCamera → string.

Definition getImages (request : GetImageRequest)
    : M (expected GetImagesResult string) :=
  λ w, let '(result, client) :=
         ImageClientInterface_getImages (image_client_interface_ w) request in
       (Returned result, with_image_client client w, [GetImages request]).

Definition logError (message : string) : M unit := call (LogError message).

Definition updateStaticTransforms (transforms : list TransformStamped) : M unit :=
  call (UpdateStaticTransforms transforms).

Definition createPublishers (sources : list (ImageSource SpotCamera)) : M unit :=
  call (CreatePublishers sources).

(** The callback handed to [setTimer] is always [timerCallback]; the call
    is recorded with its period. *)
Definition setTimer (period : double) : M unit := call (SetTimer period).

Definition publish (entry : ImageSource SpotCamera * ImageWithCameraInfo) : Call :=
  Publish entry.1 entry.2.

(** Modelled from the spec: [MiddlewareHandle::publishImages], defined in
    [images_middleware_handle.cpp], which is not among the sources.  The
    spec gives the publisher adapter [publish(ImageSource, image payload)],
    "called per tick, per source present in the result", and has each
    returned image dispatched "to the output channel matching its source".
    The order in which the entries of the map are visited is not fixed by
    the spec; it is the order of [map_to_list]. *)
Definition publishImages
    (images : gmap (ImageSource SpotCamera) ImageWithCameraInfo) : M unit :=
  λ w, (Returned (), w, PublishImages images :: (publish <$> map_to_list images)).

(** *** [createImageRequest], run in a world

    [createImageRequest] is a free function, called by [initialize] in
    whatever state the program is in.  Here it is the computation that such
    a call is: the same loop, over the same body, where the call of
    [toSpotImageSourceName] at the head of each iteration is a computation
    [lookup], free to read the world, to call a collaborator or to throw. *)
Fixpoint createImageRequest_loop (lookup : ImageSource SpotCamera → M string)
    (rgb_image_quality : double) (get_raw_rgb_images : bool)
    (sources : list (ImageSource SpotCamera)) (request_message : GetImageRequest)
    : M GetImageRequest :=
  match sources with
  | [] => mret request_message
  | source :: sources =>
      source_name ← lookup source;
      createImageRequest_loop lookup rgb_image_quality get_raw_rgb_images sources
        (createImageRequest_body (λ _, source_name) rgb_image_quality
                                 get_raw_rgb_images request_message source)
  end.

Definition createImageRequest_in (lookup : ImageSource SpotCamera → M string)
    (sources : list (ImageSource SpotCamera)) (has_rgb_cameras : bool)
    (rgb_image_quality : double) (get_raw_rgb_images : bool)
    : M GetImageRequest :=
  createImageRequest_loop lookup rgb_image_quality get_raw_rgb_images sources
                          GetImageRequest_default.

(** *** [SpotImagePublisher::initialize] *)
Definition initialize : M bool :=
  rgb_image_quality ← parameter getRGBImageQuality;
  publish_rgb_images ← parameter getPublishRGBImages;
  publish_depth_images ← parameter getPublishDepthImages;
  publish_depth_registered_images ← parameter getPublishDepthRegisteredImages;
  has_rgb_cameras ← parameter getHasRGBCameras;
  has_arm ← member has_arm_;
  let sources :=
    createImageSources publish_rgb_images publish_depth_images
                       publish_depth_registered_images has_arm in
  assign_image_request_message_
    (createImageRequest toSpotImageSourceName sources has_rgb_cameras
                        rgb_image_quality false);;
  createPublishers sources;;
  setTimer kImageCallbackPeriod;;
  mret true.

(** *** [SpotImagePublisher::timerCallback] *)
Definition timerCallback : M unit :=
  image_request_message ← member image_request_message_;
  if negb (bool_decide (is_Some image_request_message)) then
    logError "No image request message generated. Returning."
  else
    request ← deref image_request_message;
    image_result ← getImages request;
    if negb (has_value image_result) then
      detail ← error_of image_result;
      logError ("Failed to get images: " +:+ detail)
    else
      result ← value_of image_result;
      publishImages (images_ result);;
      result ← value_of image_result;
      updateStaticTransforms (transforms_ result).

(** The sources and the request that [initialize] computes in the world
    [w]: the arguments are read from the parameters and from [has_arm_]. *)
Definition sources_in (w : World) : list (ImageSource SpotCamera) :=
  let p := parameter_interface w in
  createImageSources (getPublishRGBImages p) (getPublishDepthImages p)
                     (getPublishDepthRegisteredImages p) (has_arm_ (this w)).

Definition request_built_in (w : World) : GetImageRequest :=
  let p := parameter_interface w in
  createImageRequest toSpotImageSourceName (sources_in w)
                     (getHasRGBCameras p) (getRGBImageQuality p) false.

(** [n] firings of the timer set by [initialize]. *)
Fixpoint ticks (n : nat) : M unit :=
  match n with
  | 0 => mret ()
  | S n => timerCallback;; ticks n
  end.

(** *** Reading a record of calls *)
Definition is_LogError (c : Call) : bool :=
  match c with LogError _ => true | _ => false end.

Definition is_GetImages (c : Call) : bool :=
  match c with GetImages _ => true | _ => false end.

Definition is_publish (c : Call) : bool :=
  match c with PublishImages _ | Publish _ _ => true | _ => false end.

Definition is_UpdateStaticTransforms (c : Call) : bool :=
  match c with UpdateStaticTransforms _ => true | _ => false end.

Definition is_SetTimer (c : Call) : bool :=
  match c with SetTimer _ => true | _ => false end.

(** The calls that set the pipeline up: creating publishers, starting a
    timer. *)
Definition is_setup (c : Call) : bool :=
  match c with CreatePublishers _ | SetTimer _ => true | _ => false end.

(** The requests handed to the image client, in order. *)
Definition requests_sent (calls : list Call) : list GetImageRequest :=
  omap (λ c, match c with GetImages r => Some r | _ => None end) calls.

(** The images published on the channel of [source], in order. *)
Definition published_on (source : ImageSource SpotCamera) (calls : list Call)
    : list ImageWithCameraInfo :=
  omap (λ c, match c with
             | Publish s image => if decide (s = source) then Some image else None
             | _ => None
             end) calls.

(** The maps handed to [publishImages], in order. *)
Definition maps_published (calls : list Call)
    : list (gmap (ImageSource SpotCamera) ImageWithCameraInfo) :=
  omap (λ c, match c with PublishImages images => Some images | _ => None end) calls.

(** The batches handed to the transform broadcaster, in order. *)
Definition broadcasts (calls : list Call) : list (list TransformStamped) :=
  omap (λ c, match c with UpdateStaticTransforms t => Some t | _ => None end) calls.

End Publisher.

(** [s] occurs in [t]. *)
Definition contains (t s : string) : Prop :=
  ∃ before after, t = before +:+ s +:+ after.

(** ** Image sources from the publish flags *)
Section ImageSources.
Context {SpotCamera : Type}.

(** Modelled from the spec: [createImageSources], defined in
    [spot_image_sources.cpp], which is not among the sources.  The spec
    (4.1) has it a pure function of the three publish flags and of the
    arm flag: "Body-mounted sources are always candidates; arm-mounted
    sources are included only when hasArm is true", and "an all-false input
    yields an empty set".  The cameras themselves are not listed by the
    spec and are parameters; sources are ordered by (location, modality). *)
Definition sourcesFor (body_cameras arm_cameras : list SpotCamera)
    (publishColor publishDepth publishDepthRegistered hasArm : bool)
    : list (ImageSource SpotCamera) :=
  c ← body_cameras ++ (if hasArm then arm_cameras else []);
  t ← (if publishColor then [RGB] else [])
      ++ (if publishDepth then [DEPTH] else [])
      ++ (if publishDepthRegistered then [DEPTH_REGISTERED] else []);
  [mkImageSource c t].
End ImageSources.

(** ** Test doubles

    Stand-ins for the collaborators, in the manner of the mock objects a unit
    test of the publisher is given.  They are used by the examples only. *)
Module Fake.
Inductive SpotCamera : Set := FRONTLEFT | HAND.

#[global] Instance SpotCamera_eq_dec : EqDecision SpotCamera.
Proof. solve_decision. Defined.

#[global] Instance SpotCamera_countable : Countable SpotCamera.
Proof.
  refine (inj_countable' (λ c, match c with FRONTLEFT => 0 | HAND => 1 end)
                         (λ n, match n with 0 => FRONTLEFT | _ => HAND end) _).
  by intros [].
Defined.

Definition toSpotImageSourceName (source : ImageSource SpotCamera) : string :=
  match camera source, type source with
  | FRONTLEFT, RGB => "frontleft_fisheye_image"
  | FRONTLEFT, DEPTH => "frontleft_depth"
  | FRONTLEFT, DEPTH_REGISTERED => "frontleft_depth_in_visual_frame"
  | HAND, RGB => "hand_color_image"
  | HAND, DEPTH => "hand_depth"
  | HAND, DEPTH_REGISTERED => "hand_depth_in_hand_color_frame"
  end.

Definition createImageSources : bool → bool → bool → bool → list (ImageSource SpotCamera) :=
  sourcesFor [FRONTLEFT] [HAND].

(** Images and transforms are told apart by a label. *)
Definition ImageWithCameraInfo : Type := string.
Definition TransformStamped : Type := string.

Definition Result : Type :=
  @GetImagesResult SpotCamera _ _ ImageWithCameraInfo TransformStamped.

(** A scripted image client: it answers with the next entry of its script,
    whatever the request, and with an error once the script is used up. *)
Definition ImageClient : Type := list (expected Result string).

Definition getImages (client : ImageClient) (request : GetImageRequest)
    : expected Result string * ImageClient :=
  match client with
  | answer :: client => (answer, client)
  | [] => (unexpected "script exhausted", [])
  end.

(** The name lookup as a computation: it answers and touches nothing. *)
Definition lookup (source : ImageSource SpotCamera)
    : M (SpotCamera:=SpotCamera) (ImageWithCameraInfo:=ImageWithCameraInfo)
        (TransformStamped:=TransformStamped) (ImageClient:=ImageClient) string :=
  λ w, (Returned (toSpotImageSourceName source), w, []).

(** A name lookup that is not pure: it reads a data member of the
    publisher. *)
Definition lookup_reading_has_arm (source : ImageSource SpotCamera)
    : M (SpotCamera:=SpotCamera) (ImageWithCameraInfo:=ImageWithCameraInfo)
        (TransformStamped:=TransformStamped) (ImageClient:=ImageClient) string :=
  λ w, (Returned (if has_arm_ (this w) then "hand_color_image"
                  else toSpotImageSourceName source), w, []).

Definition parameters (rgb depth depth_registered : bool) : ParameterInterface :=
  {| getRGBImageQuality := Double.of_Z 70;
     getPublishRGBImages := rgb;
     getPublishDepthImages := depth;
     getPublishDepthRegisteredImages := depth_registered;
     getHasRGBCameras := true |}.

Definition world (this : SpotImagePublisher) (p : ParameterInterface)
    (client : ImageClient) : World :=
  {| this := this; parameter_interface := p; image_client_interface_ := client |}.

Definition request : GetImageRequest :=
  createImageRequest toSpotImageSourceName
    [mkImageSource FRONTLEFT RGB; mkImageSource FRONTLEFT DEPTH] true
    (Double.of_Z 70) false.

Definition images : gmap (ImageSource SpotCamera) ImageWithCameraInfo :=
  <[mkImageSource FRONTLEFT RGB := "A"]>
    (<[mkImageSource FRONTLEFT DEPTH := "B"]> ∅).

Definition result : Result :=
  {| images_ := images; transforms_ := ["odom_to_body"; "body_to_frontleft"] |}.

Definition sources : list (ImageSource SpotCamera) :=
  [mkImageSource FRONTLEFT RGB; mkImageSource FRONTLEFT DEPTH].

(** A publisher on which [initialize] has run. *)
Definition initialized : SpotImagePublisher :=
  {| has_arm_ := false; image_request_message_ := Some request |}.

(** Worlds: the image client fails, the image client answers, the
    publisher was only constructed, and nothing is to be published. *)
Definition failing : World :=
  world initialized (parameters true true false) [unexpected "timeout"].

Definition answering : World :=
  world initialized (parameters true true false) [value result].

Definition constructed : World :=
  world (SpotImagePublisher_new false) (parameters true true false) [value result].

Definition nothing_to_publish : World :=
  world (SpotImagePublisher_new false) (parameters false false false) [].
End Fake.

(** * Properties of the request builder *)
Section RequestBuilderFacts.
Context {SpotCamera : Type}.
Variable toSpotImageSourceName : ImageSource SpotCamera → string.

Implicit Types (sources : list (ImageSource SpotCamera)) (q : double) (raw : bool).

Lemma through_last f (l : list ImageRequest) (r : ImageRequest) :
  through (length l) f {| image_requests := l ++ [r] |}
  = {| image_requests := l ++ [f r] |}.
Proof.
  unfold through; cbn [image_requests]. f_equal.
  replace (length l) with (length l + 0) by lia.
  by rewrite alter_app_r.
Qed.

Lemma createImageRequest_body_snoc q raw m source :
  createImageRequest_body toSpotImageSourceName q raw m source
  = {| image_requests := image_requests m ++ [image_request_of toSpotImageSourceName q raw source] |}.
Proof.
  unfold createImageRequest_body, image_request_of, add_image_requests,
    set_image_source_name, set_quality_percent, set_pixel_format,
    set_image_format.
  destruct m as [l]; cbn [image_requests].
  repeat case_decide; rewrite !through_last;
    destruct (type source); done.
Qed.

Lemma foldl_createImageRequest_body q raw sources : ∀ m,
  foldl (createImageRequest_body toSpotImageSourceName q raw) m sources
  = {| image_requests := image_requests m ++ (image_request_of toSpotImageSourceName q raw <$> sources) |}.
Proof.
  induction sources as [|source sources IH]; intros [l]; cbn [foldl].
  - by rewrite fmap_nil, app_nil_r.
  - rewrite IH, createImageRequest_body_snoc; cbn [image_requests].
    by rewrite fmap_cons, <-app_assoc.
Qed.

Lemma createImageRequest_fmap sources has_rgb_cameras q raw :
  createImageRequest toSpotImageSourceName sources has_rgb_cameras q raw
  = {| image_requests := image_request_of toSpotImageSourceName q raw <$> sources |}.
Proof. unfold createImageRequest. by rewrite foldl_createImageRequest_body. Qed.

Lemma createImageRequest_lookup sources has_rgb_cameras q raw (i : nat) :
  image_requests (createImageRequest toSpotImageSourceName sources has_rgb_cameras q raw) !! i
  = image_request_of toSpotImageSourceName q raw <$> sources !! i.
Proof. rewrite createImageRequest_fmap. apply list_lookup_fmap. Qed.

Lemma createImageRequest_length sources has_rgb_cameras q raw :
  length (image_requests (createImageRequest toSpotImageSourceName sources has_rgb_cameras q raw))
  = length sources.
Proof. rewrite createImageRequest_fmap. apply length_fmap. Qed.

Lemma kDefaultDepthImageQuality_value :
  Double.scaled kDefaultDepthImageQuality 46 = Some (100 * 2 ^ 46)%Z.
Proof. reflexivity. Qed.

(** C2: for every source set and every [rgb_image_quality] and
    [get_raw_rgb_images], the sub-request that [createImageRequest] emits
    for a DEPTH or DEPTH_REGISTERED source (the one at the position of the
    source in the iteration) carries the name of the source, the quality
    [kDefaultDepthImageQuality], whose value is exactly 100, and the raw
    image format; the same sub-request is emitted under any other
    quality and raw setting. *)
Theorem createImageRequest_depth
    (sources : list (ImageSource SpotCamera)) (i : nat)
    (source : ImageSource SpotCamera) (has_rgb_cameras : bool)
    (rgb_image_quality : double) (get_raw_rgb_images : bool) :
  sources !! i = Some source →
  type source = DEPTH ∨ type source = DEPTH_REGISTERED →
  ∃ r : ImageRequest,
    image_requests
      (createImageRequest toSpotImageSourceName sources has_rgb_cameras rgb_image_quality
                          get_raw_rgb_images) !! i = Some r
    ∧ image_source_name r = toSpotImageSourceName source
    ∧ quality_percent r = kDefaultDepthImageQuality
    ∧ Double.scaled (quality_percent r) 46 = Some (100 * 2 ^ 46)%Z
    ∧ image_format r = Image_Format_FORMAT_RAW
    ∧ ∀ (quality' : double) (raw' : bool),
        image_requests
          (createImageRequest toSpotImageSourceName sources has_rgb_cameras quality' raw') !! i
        = Some r.
Proof.
  intros Hi Hdepth.
  exists (image_request_of toSpotImageSourceName rgb_image_quality get_raw_rgb_images source).
  split; [by rewrite createImageRequest_lookup, Hi|].
  assert (Hfixed : ∀ q raw,
    image_request_of toSpotImageSourceName q raw source
    = {| image_source_name := toSpotImageSourceName source;
         quality_percent := kDefaultDepthImageQuality;
         image_format := Image_Format_FORMAT_RAW;
         pixel_format := Image_PixelFormat_PIXEL_FORMAT_UNKNOWN |}).
  { intros q raw. unfold image_request_of.
    destruct Hdepth as [-> | ->]; reflexivity. }
  rewrite Hfixed; cbn [image_source_name quality_percent image_format].
  split_and!; [done | done | apply kDefaultDepthImageQuality_value | done |].
  intros q' raw'. by rewrite createImageRequest_lookup, Hi, <-(Hfixed q' raw').
Qed.

(** C7: for every RGB source of the input, the sub-request that
    [createImageRequest] emits for it carries the name of the source, the
    quality [rgb_image_quality], and the raw format when
    [get_raw_rgb_images] holds, the JPEG format otherwise. *)
Theorem createImageRequest_rgb
    (sources : list (ImageSource SpotCamera)) (i : nat)
    (source : ImageSource SpotCamera) (has_rgb_cameras : bool)
    (rgb_image_quality : double) (get_raw_rgb_images : bool) :
  sources !! i = Some source →
  type source = RGB →
  ∃ r : ImageRequest,
    image_requests
      (createImageRequest toSpotImageSourceName sources has_rgb_cameras rgb_image_quality
                          get_raw_rgb_images) !! i = Some r
    ∧ image_source_name r = toSpotImageSourceName source
    ∧ quality_percent r = rgb_image_quality
    ∧ image_format r = (if get_raw_rgb_images then Image_Format_FORMAT_RAW
                        else Image_Format_FORMAT_JPEG).
Proof.
  intros Hi Hrgb.
  exists (image_request_of toSpotImageSourceName rgb_image_quality get_raw_rgb_images source).
  split; [by rewrite createImageRequest_lookup, Hi|].
  unfold image_request_of. by rewrite Hrgb.
Qed.

(** C8: on the empty set of sources [createImageRequest] returns a request
    with no sub-request. *)
Theorem createImageRequest_empty
    (has_rgb_cameras : bool) (rgb_image_quality : double)
    (get_raw_rgb_images : bool) :
  createImageRequest toSpotImageSourceName [] has_rgb_cameras rgb_image_quality get_raw_rgb_images
  = {| image_requests := [] |}
  ∧ length (image_requests
              (createImageRequest toSpotImageSourceName [] has_rgb_cameras rgb_image_quality
                                  get_raw_rgb_images)) = 0.
Proof. split; reflexivity. Qed.

(** C10: the request does not depend on [has_rgb_cameras]: two runs of
    [createImageRequest] that differ in that argument only return the same
    request. *)
Theorem createImageRequest_ignores_has_rgb_cameras
    (sources : list (ImageSource SpotCamera))
    (has_rgb_cameras has_rgb_cameras' : bool)
    (rgb_image_quality : double) (get_raw_rgb_images : bool) :
  createImageRequest toSpotImageSourceName sources has_rgb_cameras rgb_image_quality
                     get_raw_rgb_images
  = createImageRequest toSpotImageSourceName sources has_rgb_cameras' rgb_image_quality
                       get_raw_rgb_images.
Proof. by rewrite !createImageRequest_fmap. Qed.

End RequestBuilderFacts.

(** * Strings *)
Lemma append_empty_r (s : string) : s +:+ EmptyString = s.
Proof.
  induction s as [|a s IH]; [reflexivity|].
  change (String a (s +:+ EmptyString) = String a s). by rewrite IH.
Qed.

Lemma contains_append (before s : string) : contains (before +:+ s) s.
Proof. exists before, EmptyString. by rewrite append_empty_r. Qed.

(** * Properties of the publisher *)
Section PublisherFacts.
Context {SpotCamera : Type} `{Countable SpotCamera}.
Context {ImageWithCameraInfo TransformStamped ImageClient : Type}.

Abbreviation Result :=
  (@GetImagesResult SpotCamera _ _ ImageWithCameraInfo TransformStamped).
Abbreviation Calls :=
  (list (@Call SpotCamera _ _ ImageWithCameraInfo TransformStamped)).

Variable ImageClientInterface_getImages :
  ImageClient → GetImageRequest → expected Result string * ImageClient.
Variable createImageSources : bool → bool → bool → bool → list (ImageSource SpotCamera).
Variable toSpotImageSourceName : ImageSource SpotCamera → string.

Implicit Types (w : @World ImageClient) (request : GetImageRequest).

(** ** The three ways through [timerCallback] *)
Ltac run_callback :=
  unfold timerCallback, getImages, logError, updateStaticTransforms,
    publishImages, member, deref, error_of, value_of, call,
    mbind, M_bind; cbn beta iota.

Lemma timerCallback_no_request w :
  image_request_message_ (this w) = None →
  timerCallback ImageClientInterface_getImages w
  = (Returned (), w, [LogError "No image request message generated. Returning."]).
Proof. intros Hnone. run_callback. by rewrite Hnone. Qed.

Lemma timerCallback_unexpected w request detail client' :
  image_request_message_ (this w) = Some request →
  ImageClientInterface_getImages (image_client_interface_ w) request
    = (unexpected detail, client') →
  timerCallback ImageClientInterface_getImages w
  = (Returned (), with_image_client client' w,
     [GetImages request; LogError ("Failed to get images: " +:+ detail)]).
Proof. intros Hsome Hget. run_callback. by rewrite Hsome; cbn; rewrite Hget. Qed.

Lemma timerCallback_value w request (result : Result) client' :
  image_request_message_ (this w) = Some request →
  ImageClientInterface_getImages (image_client_interface_ w) request
    = (value result, client') →
  timerCallback ImageClientInterface_getImages w
  = (Returned (), with_image_client client' w,
     GetImages request :: PublishImages (images_ result)
       :: (publish <$> map_to_list (images_ result))
       ++ [UpdateStaticTransforms (transforms_ result)]).
Proof.
  intros Hsome Hget. run_callback. by rewrite Hsome; cbn; rewrite Hget.
Qed.

(** Whatever the image client answers, a tick that finds a request sends
    it, once, and returns. *)
Lemma timerCallback_request w request :
  image_request_message_ (this w) = Some request →
  ∃ client' (calls : Calls),
    timerCallback ImageClientInterface_getImages w
    = (Returned (), with_image_client client' w, calls)
    ∧ requests_sent calls = [request].
Proof.
  intros Hsome.
  destruct (ImageClientInterface_getImages (image_client_interface_ w) request)
    as [[result|detail] client'] eqn:Hget.
  - eexists _, _; split; [by eapply timerCallback_value|].
    cbn. f_equal.
    induction (map_to_list (images_ result)) as [|[] l IH]; done.
  - eexists _, _; split; [by eapply timerCallback_unexpected|]. done.
Qed.

(** No path through [timerCallback] writes a data member. *)
Lemma timerCallback_this w :
  this (timerCallback ImageClientInterface_getImages w).1.2 = this w.
Proof.
  destruct (image_request_message_ (this w)) as [request|] eqn:Hreq.
  - destruct (timerCallback_request w request Hreq) as (c & calls & -> & _). done.
  - by rewrite timerCallback_no_request.
Qed.

Lemma initialize_run w :
  initialize createImageSources toSpotImageSourceName w
  = (Returned true,
     with_image_request_message
       (request_built_in createImageSources toSpotImageSourceName w) w,
     [CreatePublishers (sources_in createImageSources w);
      SetTimer kImageCallbackPeriod] : Calls).
Proof. reflexivity. Qed.

Lemma ticks_request n : ∀ w request,
  image_request_message_ (this w) = Some request →
  ∃ w' (calls : Calls),
    ticks ImageClientInterface_getImages n w = (Returned (), w', calls)
    ∧ this w' = this w
    ∧ requests_sent calls = replicate n request.
Proof.
  induction n as [|n IH]; intros w request Hsome.
  - by eexists _, _.
  - destruct (timerCallback_request w request Hsome) as (c & calls1 & Hrun & Hsent).
    destruct (IH (with_image_client c w) request Hsome) as (w' & calls2 & Hrest & Hthis & Hsent').
    exists w', (calls1 ++ calls2). split_and!.
    + cbn [ticks]. unfold mbind, M_bind. by rewrite Hrun, Hrest.
    + done.
    + unfold requests_sent in *. by rewrite omap_app, Hsent, Hsent'.
Qed.

(** ** What is published on a channel *)
Lemma published_on_absent source (l : list (ImageSource SpotCamera * ImageWithCameraInfo)) :
  source ∉ l.*1 →
  published_on (TransformStamped:=TransformStamped) source (publish <$> l) = [].
Proof.
  induction l as [|[s image] l IH]; [done|].
  rewrite fmap_cons, not_elem_of_cons; intros [Hne Hnotin]; cbn in *.
  case_decide; [congruence|]. by apply IH.
Qed.

Lemma published_on_list_to_map source
    (l : list (ImageSource SpotCamera * ImageWithCameraInfo)) :
  NoDup l.*1 →
  published_on (TransformStamped:=TransformStamped) source (publish <$> l)
  = option_list ((list_to_map l : gmap _ _) !! source).
Proof.
  induction l as [|[s image] l IH]; [done|].
  rewrite fmap_cons, NoDup_cons; intros [Hnotin Hnodup]; cbn in *.
  case_decide as Hs.
  - subst s. rewrite lookup_insert_eq; cbn. f_equal. by apply published_on_absent.
  - rewrite lookup_insert_ne by done. by apply IH.
Qed.

Lemma published_on_map_to_list source
    (images : gmap (ImageSource SpotCamera) ImageWithCameraInfo) :
  published_on (TransformStamped:=TransformStamped) source
               (publish <$> map_to_list images)
  = option_list (images !! source).
Proof.
  rewrite published_on_list_to_map by apply NoDup_fst_map_to_list.
  by rewrite list_to_map_to_list.
Qed.

(** ** The claims about a tick *)

(** C1: on a tick in which the image client returns an error, the callback
    returns normally after exactly one call to the logger, whose message
    contains the error detail given by the client; it makes no publish
    call and no transform broadcast; the data members of the publisher,
    the stored request among them, and the parameters are unchanged; and
    the world it leaves differs from the one it found by the state of the
    image client only, so that the next tick runs as a tick that was never
    preceded by the failure. *)
Theorem timerCallback_image_client_error w request detail client' :
  image_request_message_ (this w) = Some request →
  ImageClientInterface_getImages (image_client_interface_ w) request
    = (unexpected detail, client') →
  let run := timerCallback ImageClientInterface_getImages w in
  run.1.1 = Returned ()
  ∧ (∃ message : string,
       run.2 = [GetImages request; LogError message]
       ∧ List.filter is_LogError run.2 = [LogError message]
       ∧ contains message detail)
  ∧ List.filter is_publish run.2 = []
  ∧ List.filter is_UpdateStaticTransforms run.2 = []
  ∧ this run.1.2 = this w
  ∧ image_request_message_ (this run.1.2) = Some request
  ∧ parameter_interface run.1.2 = parameter_interface w
  ∧ run.1.2 = with_image_client client' w
  ∧ timerCallback ImageClientInterface_getImages run.1.2
    = timerCallback ImageClientInterface_getImages (with_image_client client' w).
Proof.
  intros Hsome Hget run. subst run.
  rewrite (timerCallback_unexpected _ _ _ _ Hsome Hget); cbn.
  split_and!; try done.
  exists ("Failed to get images: " +:+ detail). split_and!; try done.
  apply contains_append.
Qed.

(** C4: a tick that finds no request (none was ever assigned) logs one
    error and returns normally; it does not call the image client, makes
    no publish call and no transform broadcast, leaves the world as it
    was, and does not end in undefined behaviour: the empty optional is
    not read through. *)
Theorem timerCallback_before_initialize w :
  image_request_message_ (this w) = None →
  let run := timerCallback ImageClientInterface_getImages w in
  run.1.1 = Returned ()
  ∧ run.1.1 ≠ Undefined
  ∧ run.2 = [LogError "No image request message generated. Returning."]
  ∧ requests_sent run.2 = []
  ∧ List.filter is_publish run.2 = []
  ∧ broadcasts run.2 = []
  ∧ run.1.2 = w.
Proof.
  intros Hnone run. subst run. by rewrite (timerCallback_no_request _ Hnone).
Qed.

(** C5: on a tick in which the image client returns a result, the callback
    returns normally; the whole map of images is handed to [publishImages]
    once, and on the channel of every source exactly the image of that
    source is published, once, when the result has one, and nothing
    otherwise; the transforms are handed to the broadcaster in exactly one
    call, in their original order. *)
Theorem timerCallback_image_client_value w request (result : Result) client' :
  image_request_message_ (this w) = Some request →
  ImageClientInterface_getImages (image_client_interface_ w) request
    = (value result, client') →
  let run := timerCallback ImageClientInterface_getImages w in
  run.1.1 = Returned ()
  ∧ requests_sent run.2 = [request]
  ∧ maps_published run.2 = [images_ result]
  ∧ (∀ source, published_on source run.2 = option_list (images_ result !! source))
  ∧ broadcasts run.2 = [transforms_ result]
  ∧ List.filter is_LogError run.2 = [].
Proof.
  intros Hsome Hget run. subst run.
  rewrite (timerCallback_value _ _ _ _ Hsome Hget); cbn [fst snd].
  assert (Hquiet : ∀ l : list (ImageSource SpotCamera * ImageWithCameraInfo),
    requests_sent (TransformStamped:=TransformStamped) (publish <$> l) = []
    ∧ maps_published (TransformStamped:=TransformStamped) (publish <$> l) = []
    ∧ broadcasts (TransformStamped:=TransformStamped) (publish <$> l) = []
    ∧ List.filter is_LogError
        (publish (TransformStamped:=TransformStamped) <$> l) = []).
  { induction l as [|[] l IH]; done. }
  destruct (Hquiet (map_to_list (images_ result))) as (Hr & Hm & Hb & Hl).
  split_and!.
  - done.
  - unfold requests_sent in *. cbn. by rewrite omap_app, Hr.
  - unfold maps_published in *. cbn. by rewrite omap_app, Hm.
  - intros source. unfold published_on. cbn. rewrite omap_app; cbn.
    rewrite app_nil_r. apply published_on_map_to_list.
  - unfold broadcasts in *. cbn. by rewrite omap_app, Hb.
  - cbn. by rewrite List.filter_app, Hl.
Qed.

(** ** The claims about [initialize] *)

(** C3: [initialize] assigns the request it builds to the data member; no
    tick writes a data member; hence after [initialize] and any number of
    ticks, whatever the image client answers, the data member still holds
    that request, [initialize] itself sent nothing to the image client,
    and the image client was called once per tick, each time with that
    request. *)
Theorem request_fixed_by_initialize w (n : nat) :
  let request := request_built_in createImageSources toSpotImageSourceName w in
  (∀ w0, this (timerCallback ImageClientInterface_getImages w0).1.2 = this w0)
  ∧ ∃ w1 (calls1 : Calls) w2 (calls2 : Calls),
      initialize createImageSources toSpotImageSourceName w
        = (Returned true, w1, calls1)
      ∧ image_request_message_ (this w1) = Some request
      ∧ requests_sent calls1 = []
      ∧ ticks ImageClientInterface_getImages n w1 = (Returned (), w2, calls2)
      ∧ image_request_message_ (this w2) = Some request
      ∧ requests_sent calls2 = replicate n request.
Proof.
  intros request. split; [apply timerCallback_this|].
  destruct (ticks_request n (with_image_request_message request w) request eq_refl)
    as (w2 & calls2 & Hticks & Hthis & Hsent).
  eexists _, _, w2, calls2. split_and!.
  - apply initialize_run.
  - done.
  - done.
  - done.
  - by rewrite Hthis.
  - done.
Qed.

(** C6, as the code has it: [initialize] returns a boolean that is [true]
    in every world; it has no failing path.  It always assigns the request
    it builds, creates the publishers and starts the timer, once, also
    when the request has no sub-request. *)
Theorem initialize_never_fails w :
  let run := initialize (ImageWithCameraInfo:=ImageWithCameraInfo)
               (TransformStamped:=TransformStamped)
               createImageSources toSpotImageSourceName w in
  run.1.1 = Returned true
  ∧ image_request_message_ (this run.1.2)
    = Some (request_built_in createImageSources toSpotImageSourceName w)
  ∧ run.2 = [CreatePublishers (sources_in createImageSources w);
             SetTimer kImageCallbackPeriod]
  ∧ List.filter is_SetTimer run.2 = [SetTimer kImageCallbackPeriod].
Proof. intros run. subst run. by rewrite initialize_run. Qed.

End PublisherFacts.

(** * The request builder among the effects *)
Section RequestBuilderRun.
Context {SpotCamera : Type} `{Countable SpotCamera}.
Context {ImageWithCameraInfo TransformStamped ImageClient : Type}.

Abbreviation Computation :=
  (@M SpotCamera _ _ ImageWithCameraInfo TransformStamped ImageClient).

(** The name lookup as a computation, and the names it answers with. *)
Variable lookup : ImageSource SpotCamera → Computation string.
Variable toSpotImageSourceName : ImageSource SpotCamera → string.

(** The lookup is pure: in every world it returns the name, leaves the world
    as it was and calls nothing. *)
Hypothesis lookup_pure :
  ∀ source w, lookup source w = (Returned (toSpotImageSourceName source), w, []).


End RequestBuilderRun.


(** * Examples on the test doubles *)
Section Examples.
Import Fake.

Abbreviation Calls :=
  (list (@Call SpotCamera _ _ ImageWithCameraInfo TransformStamped)).

Example request_of_two_sources :
  request
  = {| image_requests :=
         [ {| image_source_name := "frontleft_fisheye_image";
              quality_percent := Double.of_Z 70;
              image_format := Image_Format_FORMAT_JPEG;
              pixel_format := Image_PixelFormat_PIXEL_FORMAT_RGB_U8 |};
           {| image_source_name := "frontleft_depth";
              quality_percent := Double.of_Z 100;
              image_format := Image_Format_FORMAT_RAW;
              pixel_format := Image_PixelFormat_PIXEL_FORMAT_UNKNOWN |} ] |}.
Proof. reflexivity. Qed.

Example initialize_then_tick :
  (initialize createImageSources toSpotImageSourceName;;
   timerCallback getImages) constructed
  = (Returned (), world initialized (parameters true true false) [],
     [CreatePublishers sources; SetTimer kImageCallbackPeriod;
      GetImages request; PublishImages images;
      Publish (mkImageSource FRONTLEFT DEPTH) "B";
      Publish (mkImageSource FRONTLEFT RGB) "A";
      UpdateStaticTransforms ["odom_to_body"; "body_to_frontleft"]]).
Proof. vm_compute. reflexivity. Qed.
(** The configuration of the spec's example: colour only, no arm, quality
    100, compressed. *)
Example request_colour_only :
  createImageRequest toSpotImageSourceName
    (createImageSources true false false false) true (Double.of_Z 100) false
  = {| image_requests :=
         [ {| image_source_name := "frontleft_fisheye_image";
              quality_percent := Double.of_Z 100;
              image_format := Image_Format_FORMAT_JPEG;
              pixel_format := Image_PixelFormat_PIXEL_FORMAT_RGB_U8 |} ] |}.
Proof. reflexivity. Qed.

(** A tick against the empty request publishes whatever the client
    returns; with an empty result, nothing. *)
Example tick_on_empty_request :
  timerCallback getImages
    (world {| has_arm_ := false;
              image_request_message_ := Some {| image_requests := [] |} |}
           (parameters false false false)
           [value {| images_ := ∅; transforms_ := [] |}])
  = (Returned (),
     world {| has_arm_ := false;
              image_request_message_ := Some {| image_requests := [] |} |}
           (parameters false false false) [],
     [GetImages {| image_requests := [] |}; PublishImages ∅;
      UpdateStaticTransforms []]).
Proof. vm_compute. reflexivity. Qed.

(** With a name lookup that reads the publisher, the same arguments give
    different requests in different worlds. *)
Example createImageRequest_in_reads_through_lookup :
  (createImageRequest_in lookup_reading_has_arm sources true (Double.of_Z 70) false
     (world (SpotImagePublisher_new true) (parameters true true false) [])).1.1
  ≠ (createImageRequest_in lookup_reading_has_arm sources true (Double.of_Z 70) false
       (world (SpotImagePublisher_new false) (parameters true true false) [])).1.1.
Proof. vm_compute. discriminate. Qed.

(** ** The theorems at concrete inputs *)

Lemma createImageRequest_depth_witness :
  ∃ r : ImageRequest,
    image_requests
      (createImageRequest toSpotImageSourceName sources true
                          (Double.of_Z 70) true) !! 1 = Some r
    ∧ image_source_name r = toSpotImageSourceName (mkImageSource FRONTLEFT DEPTH)
    ∧ quality_percent r = kDefaultDepthImageQuality
    ∧ Double.scaled (quality_percent r) 46 = Some (100 * 2 ^ 46)%Z
    ∧ image_format r = Image_Format_FORMAT_RAW
    ∧ ∀ (quality' : double) (raw' : bool),
        image_requests
          (createImageRequest toSpotImageSourceName sources true quality' raw') !! 1
        = Some r.
Proof.
  apply (createImageRequest_depth toSpotImageSourceName sources 1
           (mkImageSource FRONTLEFT DEPTH) true (Double.of_Z 70) true).
  - reflexivity.
  - left. reflexivity.
Defined.

Lemma createImageRequest_rgb_witness :
  ∃ r : ImageRequest,
    image_requests
      (createImageRequest toSpotImageSourceName sources true
                          (Double.of_Z 70) false) !! 0 = Some r
    ∧ image_source_name r = toSpotImageSourceName (mkImageSource FRONTLEFT RGB)
    ∧ quality_percent r = Double.of_Z 70
    ∧ image_format r = Image_Format_FORMAT_JPEG.
Proof.
  apply (createImageRequest_rgb toSpotImageSourceName sources 0
           (mkImageSource FRONTLEFT RGB) true (Double.of_Z 70) false).
  - reflexivity.
  - reflexivity.
Defined.


Lemma timerCallback_image_client_error_witness :
  let run := timerCallback getImages failing in
  run.1.1 = Returned ()
  ∧ (∃ message : string,
       run.2 = [GetImages request; LogError message]
       ∧ List.filter is_LogError run.2 = [LogError message]
       ∧ contains message "timeout")
  ∧ List.filter is_publish run.2 = []
  ∧ List.filter is_UpdateStaticTransforms run.2 = []
  ∧ this run.1.2 = this failing
  ∧ image_request_message_ (this run.1.2) = Some request
  ∧ parameter_interface run.1.2 = parameter_interface failing
  ∧ run.1.2 = with_image_client [] failing
  ∧ timerCallback getImages run.1.2
    = timerCallback getImages (with_image_client [] failing).
Proof.
  apply (timerCallback_image_client_error getImages failing request "timeout" []).
  - reflexivity.
  - reflexivity.
Defined.

Lemma timerCallback_before_initialize_witness :
  let run := timerCallback getImages constructed in
  run.1.1 = Returned ()
  ∧ run.1.1 ≠ Undefined
  ∧ run.2 = [LogError "No image request message generated. Returning."]
  ∧ requests_sent run.2 = []
  ∧ List.filter is_publish run.2 = []
  ∧ broadcasts run.2 = []
  ∧ run.1.2 = constructed.
Proof.
  apply (timerCallback_before_initialize getImages constructed).
  reflexivity.
Defined.

Lemma timerCallback_image_client_value_witness :
  let run := timerCallback getImages answering in
  run.1.1 = Returned ()
  ∧ requests_sent run.2 = [request]
  ∧ maps_published run.2 = [images]
  ∧ (∀ source, published_on source run.2 = option_list (images !! source))
  ∧ broadcasts run.2 = [["odom_to_body"; "body_to_frontleft"]]
  ∧ List.filter is_LogError run.2 = [].
Proof.
  apply (timerCallback_image_client_value getImages answering request result []).
  - reflexivity.
  - reflexivity.
Defined.

(** ** [initialize] where nothing is to be published

    With the three publish flags off there are no sources and the request
    that is built has no sub-request.  Were such a request a failure of
    [initialize], the function would return [false] and would not call
    [setTimer]; it returns [true] and the timer is set. *)
Lemma initialize_empty_request_succeeds :
  let run := initialize createImageSources toSpotImageSourceName
                        nothing_to_publish in
  let request := request_built_in createImageSources toSpotImageSourceName
                                  nothing_to_publish in
  image_requests request = []
  ∧ run.1.1 = Returned true
  ∧ List.filter is_SetTimer (run.2 : Calls) = [SetTimer kImageCallbackPeriod]
  ∧ ¬ (image_requests request = [] →
       run.1.1 = Returned false ∧ List.filter is_SetTimer run.2 = []).
Proof.
  cbv zeta. split_and!; [reflexivity..|].
  intros Hfails. destruct (Hfails eq_refl) as [Hfalse _]. discriminate Hfalse.
Qed.

End Examples.

(** * Further properties of the request builder *)
Section RequestBuilderShape.
Context {SpotCamera : Type}.
Variable toSpotImageSourceName : ImageSource SpotCamera → string.

Implicit Types (sources : list (ImageSource SpotCamera)) (q : double) (raw : bool).

Lemma createImageRequest_names_fmap sources has_rgb_cameras q raw :
  image_source_name
    <$> image_requests (createImageRequest toSpotImageSourceName sources
                                           has_rgb_cameras q raw)
  = toSpotImageSourceName <$> sources.
Proof.
  rewrite createImageRequest_fmap; cbn [image_requests].
  rewrite <-list_fmap_compose. apply list_fmap_ext.
  intros i source _. unfold image_request_of; cbn. by destruct (type source).
Qed.

(** The sub-request of a source, by the kind of the source. *)
Lemma image_request_of_kind q raw (source : ImageSource SpotCamera) :
  let r := image_request_of toSpotImageSourceName q raw source in
  (pixel_format r = Image_PixelFormat_PIXEL_FORMAT_RGB_U8
   ∧ image_format r = (if raw then Image_Format_FORMAT_RAW
                       else Image_Format_FORMAT_JPEG)
   ∧ quality_percent r = q)
  ∨ (pixel_format r = Image_PixelFormat_PIXEL_FORMAT_UNKNOWN
     ∧ image_format r = Image_Format_FORMAT_RAW
     ∧ quality_percent r = kDefaultDepthImageQuality).
Proof. unfold image_request_of. destruct (type source); cbn; auto. Qed.

(** X1: the request has exactly one sub-request per source, in the order of
    iteration, and each carries the name that [toSpotImageSourceName] gives
    to its source. *)
Theorem createImageRequest_names sources has_rgb_cameras q raw :
  image_source_name
    <$> image_requests (createImageRequest toSpotImageSourceName sources
                                           has_rgb_cameras q raw)
  = toSpotImageSourceName <$> sources
  ∧ length (image_requests (createImageRequest toSpotImageSourceName sources
                                               has_rgb_cameras q raw))
    = length sources.
Proof.
  split; [apply createImageRequest_names_fmap|].
  rewrite createImageRequest_fmap; cbn [image_requests]. apply length_fmap.
Qed.

(** X2: the pixel format is requested for RGB sources only, where it is
    RGB_U8; the sub-request of a depth or registered-depth source leaves it
    at the default of the message. *)
Theorem createImageRequest_pixel_formats sources has_rgb_cameras q raw :
  pixel_format
    <$> image_requests (createImageRequest toSpotImageSourceName sources
                                           has_rgb_cameras q raw)
  = (λ source, if decide (type source = RGB)
               then Image_PixelFormat_PIXEL_FORMAT_RGB_U8
               else pixel_format ImageRequest_default) <$> sources.
Proof.
  rewrite createImageRequest_fmap; cbn [image_requests].
  rewrite <-list_fmap_compose. apply list_fmap_ext.
  intros i source _. unfold image_request_of; cbn. by destruct (type source).
Qed.

(** X3: sub-requests are built source by source: the request for the
    sources [sources1] followed by [sources2] is the sub-requests for
    [sources1] followed by those for [sources2]. *)
Theorem createImageRequest_app sources1 sources2 has_rgb_cameras q raw :
  image_requests (createImageRequest toSpotImageSourceName (sources1 ++ sources2)
                                     has_rgb_cameras q raw)
  = image_requests (createImageRequest toSpotImageSourceName sources1
                                       has_rgb_cameras q raw)
    ++ image_requests (createImageRequest toSpotImageSourceName sources2
                                          has_rgb_cameras q raw).
Proof. rewrite !createImageRequest_fmap; cbn [image_requests]. apply fmap_app. Qed.

(** X4: when no source is an RGB source, the whole request is the same
    under every quality and raw setting. *)
Theorem createImageRequest_without_rgb sources has_rgb_cameras q raw q' raw' :
  Forall (λ source, type source ≠ RGB) sources →
  createImageRequest toSpotImageSourceName sources has_rgb_cameras q raw
  = createImageRequest toSpotImageSourceName sources has_rgb_cameras q' raw'.
Proof.
  intros Hdepth. rewrite !createImageRequest_fmap. f_equal.
  apply Forall_fmap_ext_1. eapply Forall_impl; [exact Hdepth|].
  intros source Hne; cbn in Hne. unfold image_request_of.
  destruct (type source); [congruence | done | done].
Qed.

(** X5: when the sources are pairwise distinct, as the elements of a set
    are, and [toSpotImageSourceName] gives distinct sources distinct names,
    no name is requested twice. *)
Theorem createImageRequest_names_NoDup sources has_rgb_cameras q raw :
  Inj (=) (=) toSpotImageSourceName →
  NoDup sources →
  NoDup (image_source_name
           <$> image_requests (createImageRequest toSpotImageSourceName sources
                                                  has_rgb_cameras q raw)).
Proof.
  intros Hinj Hnodup.
  rewrite createImageRequest_names_fmap. by apply (NoDup_fmap_2 _).
Qed.

(** X14: when some source is an RGB source, the request tells the quality
    and the raw setting it was built with: two requests for the same sources
    are equal only if both settings agree. *)
Theorem createImageRequest_with_rgb sources has_rgb_cameras q raw q' raw' :
  Exists (λ source, type source = RGB) sources →
  createImageRequest toSpotImageSourceName sources has_rgb_cameras q raw
  = createImageRequest toSpotImageSourceName sources has_rgb_cameras q' raw' →
  q = q' ∧ raw = raw'.
Proof.
  intros Hrgb Heq. rewrite !createImageRequest_fmap in Heq.
  injection Heq as Heq.
  apply Exists_exists in Hrgb as (source & Hin & Htype).
  apply list_elem_of_lookup in Hin as [i Hi].
  apply (f_equal (λ l, l !! i)) in Heq.
  rewrite !list_lookup_fmap, Hi in Heq; cbn in Heq.
  unfold image_request_of in Heq. rewrite Htype in Heq.
  injection Heq as Hq Hraw. split; [done|].
  by destruct raw, raw'.
Qed.

End RequestBuilderShape.

(** * Further properties of the publisher *)
Section PublisherBehaviour.
Context {SpotCamera : Type} `{Countable SpotCamera}.
Context {ImageWithCameraInfo TransformStamped ImageClient : Type}.

Abbreviation Result :=
  (@GetImagesResult SpotCamera _ _ ImageWithCameraInfo TransformStamped).
Abbreviation Calls :=
  (list (@Call SpotCamera _ _ ImageWithCameraInfo TransformStamped)).

Variable ImageClientInterface_getImages :
  ImageClient → GetImageRequest → expected Result string * ImageClient.
Variable createImageSources : bool → bool → bool → bool → list (ImageSource SpotCamera).
Variable toSpotImageSourceName : ImageSource SpotCamera → string.

Implicit Types (w : @World ImageClient) (request : GetImageRequest).

(** The calls that [publishImages] adds for the entries of the map are
    publish calls and nothing else. *)
Lemma publish_calls_only (l : list (ImageSource SpotCamera * ImageWithCameraInfo)) :
  requests_sent (TransformStamped:=TransformStamped) (publish <$> l) = []
  ∧ maps_published (TransformStamped:=TransformStamped) (publish <$> l) = []
  ∧ broadcasts (TransformStamped:=TransformStamped) (publish <$> l) = []
  ∧ List.filter is_LogError (publish (TransformStamped:=TransformStamped) <$> l) = []
  ∧ List.filter is_setup (publish (TransformStamped:=TransformStamped) <$> l) = [].
Proof. induction l as [|[] l IH]; done. Qed.

(** The three ways through [timerCallback], in one statement. *)
Lemma timerCallback_cases w :
  (image_request_message_ (this w) = None
   ∧ timerCallback ImageClientInterface_getImages w
     = (Returned (), w,
        [LogError "No image request message generated. Returning."]))
  ∨ (∃ request detail client',
       image_request_message_ (this w) = Some request
       ∧ timerCallback ImageClientInterface_getImages w
         = (Returned (), with_image_client client' w,
            [GetImages request; LogError ("Failed to get images: " +:+ detail)]))
  ∨ (∃ request (result : Result) client',
       image_request_message_ (this w) = Some request
       ∧ timerCallback ImageClientInterface_getImages w
         = (Returned (), with_image_client client' w,
            GetImages request :: PublishImages (images_ result)
              :: (publish <$> map_to_list (images_ result))
              ++ [UpdateStaticTransforms (transforms_ result)])).
Proof.
  destruct (image_request_message_ (this w)) as [request|] eqn:Hreq.
  - right.
    destruct (ImageClientInterface_getImages (image_client_interface_ w) request)
      as [[result|detail] client'] eqn:Hget.
    + right. exists request, result, client'.
      split; [done|]. by apply timerCallback_value.
    + left. exists request, detail, client'.
      split; [done|]. by apply timerCallback_unexpected.
  - left. split; [done|]. by apply timerCallback_no_request.
Qed.

(** X6: the accesses of [timerCallback] are guarded.  In every world and
    for every answer of the image client, as long as the calls it makes on
    its collaborators return, [timerCallback] returns: the optional is read
    through only when it holds a request, [error()] is taken only of an
    error and [value()] only of a value, so that none of the three ends in
    undefined behaviour or throws.  (An exception thrown inside a
    collaborator is outside this statement: calls on collaborators return
    here.)  The callback writes no data member and no parameter, calls the
    image client at most once, and never creates publishers or starts a
    timer. *)
Theorem timerCallback_returns w :
  let run := timerCallback ImageClientInterface_getImages w in
  run.1.1 = Returned ()
  ∧ this run.1.2 = this w
  ∧ parameter_interface run.1.2 = parameter_interface w
  ∧ length (requests_sent run.2) ≤ 1
  ∧ List.filter is_setup run.2 = [].
Proof.
  intros run. subst run.
  destruct (timerCallback_cases w)
    as [[_ ->] | [(request & detail & c & _ & ->) | (request & result & c & _ & ->)]];
    cbn [fst snd]; split_and!; try done; try (cbn; lia).
  - destruct (publish_calls_only (map_to_list (images_ result))) as (Hr & _).
    unfold requests_sent in *. cbn. by rewrite omap_app, Hr.
  - destruct (publish_calls_only (map_to_list (images_ result))) as (_ & _ & _ & _ & Hs).
    cbn. by rewrite List.filter_app, Hs.
Qed.

(** X7: a tick either reports or publishes, never both: it makes exactly
    one call to the logger, no publish call and no transform broadcast, or
    it makes no call to the logger, exactly one call of [publishImages] and
    exactly one transform broadcast. *)
Theorem timerCallback_logs_or_publishes w :
  let run := timerCallback ImageClientInterface_getImages w in
  (length (List.filter is_LogError run.2) = 1
   ∧ List.filter is_publish run.2 = []
   ∧ broadcasts run.2 = [])
  ∨ (List.filter is_LogError run.2 = []
     ∧ length (maps_published run.2) = 1
     ∧ length (broadcasts run.2) = 1).
Proof.
  intros run. subst run.
  destruct (timerCallback_cases w)
    as [[_ ->] | [(request & detail & c & _ & ->) | (request & result & c & _ & ->)]];
    cbn [fst snd]; [by left | by left | right].
  destruct (publish_calls_only (map_to_list (images_ result)))
    as (_ & Hm & Hb & Hl & _).
  split_and!.
  - cbn. by rewrite List.filter_app, Hl.
  - unfold maps_published in *. cbn. by rewrite omap_app, Hm.
  - unfold broadcasts in *. cbn. by rewrite omap_app, Hb.
Qed.

(** X8: [initialize] builds the request with the raw flag off: in the
    request it stores, every sub-request that asks for the RGB pixel format
    asks for JPEG, at the quality read from the parameters; every other
    sub-request asks for the raw format at [kDefaultDepthImageQuality]. *)
Theorem initialize_requests_jpeg w :
  let run := initialize (ImageWithCameraInfo:=ImageWithCameraInfo)
               (TransformStamped:=TransformStamped)
               createImageSources toSpotImageSourceName w in
  ∃ request,
    image_request_message_ (this run.1.2) = Some request
    ∧ Forall (λ r,
        (pixel_format r = Image_PixelFormat_PIXEL_FORMAT_RGB_U8
         ∧ image_format r = Image_Format_FORMAT_JPEG
         ∧ quality_percent r = getRGBImageQuality (parameter_interface w))
        ∨ (pixel_format r = Image_PixelFormat_PIXEL_FORMAT_UNKNOWN
           ∧ image_format r = Image_Format_FORMAT_RAW
           ∧ quality_percent r = kDefaultDepthImageQuality))
        (image_requests request).
Proof.
  intros run. subst run. rewrite initialize_run; cbn [fst snd].
  eexists; split; [reflexivity|].
  unfold request_built_in. rewrite createImageRequest_fmap; cbn [image_requests].
  apply Forall_fmap, Forall_forall. intros source _.
  apply (image_request_of_kind toSpotImageSourceName _ false source).
Qed.

(** X9: [initialize] creates publishers for exactly the sources it
    requests images of: the sources handed to [createPublishers], before the
    timer is set, are named, one by one and in order, by the sub-requests of
    the stored request.  Nothing else of the world changes. *)
Theorem initialize_publishers_match_request w :
  let run := initialize (ImageWithCameraInfo:=ImageWithCameraInfo)
               (TransformStamped:=TransformStamped)
               createImageSources toSpotImageSourceName w in
  ∃ sources request,
    run.2 = [CreatePublishers sources; SetTimer kImageCallbackPeriod]
    ∧ image_request_message_ (this run.1.2) = Some request
    ∧ image_source_name <$> image_requests request
      = toSpotImageSourceName <$> sources
    ∧ has_arm_ (this run.1.2) = has_arm_ (this w)
    ∧ parameter_interface run.1.2 = parameter_interface w
    ∧ image_client_interface_ run.1.2 = image_client_interface_ w.
Proof.
  intros run. subst run. rewrite initialize_run; cbn [fst snd].
  eexists _, _. split_and!; try reflexivity.
  apply createImageRequest_names_fmap.
Qed.

(** X10: [initialize] does not guard against being run again.  A second run
    leaves the world of the first, with the same stored request, and repeats
    its calls: publishers are created again and a second timer is set. *)
Theorem initialize_twice w :
  let once := initialize (ImageWithCameraInfo:=ImageWithCameraInfo)
                (TransformStamped:=TransformStamped)
                createImageSources toSpotImageSourceName w in
  let twice := (initialize createImageSources toSpotImageSourceName;;
                initialize createImageSources toSpotImageSourceName) w in
  twice.1.1 = Returned true
  ∧ twice.1.2 = once.1.2
  ∧ twice.2 = once.2 ++ once.2
  ∧ List.filter is_SetTimer twice.2
    = [SetTimer kImageCallbackPeriod; SetTimer kImageCallbackPeriod].
Proof.
  intros once twice. subst once twice.
  unfold mbind, M_bind. rewrite !initialize_run; cbn [fst snd].
  split_and!; reflexivity.
Qed.

(** X11: the guard does not wear off.  On a publisher whose request was
    never assigned, any number of ticks return normally, leave the world as
    it was, never call the image client, and log the same error once per
    tick. *)
Theorem ticks_before_initialize (n : nat) w :
  image_request_message_ (this w) = None →
  ticks ImageClientInterface_getImages n w
  = (Returned (), w,
     replicate n (LogError "No image request message generated. Returning.")).
Proof.
  intros Hnone. induction n as [|n IH]; [reflexivity|].
  cbn [ticks replicate]. unfold mbind, M_bind.
  by rewrite (timerCallback_no_request _ _ Hnone), IH.
Qed.

(** The message of the guard is not the message of a failed fetch. *)
Lemma guard_message_differs (detail : string) :
  "Failed to get images: " +:+ detail
  ≠ "No image request message generated. Returning.".
Proof.
  intros Heq. apply (f_equal (String.get 0)) in Heq.
  vm_compute in Heq. discriminate Heq.
Qed.

(** X12: ticks keep no account of failures.  After any number of ticks, in
    any world and whatever the image client answers, the run has returned
    normally with the data members and the parameters as they were, and
    every tick has ended in exactly one call to the logger or in exactly one
    transform broadcast, the latter each with one call of [publishImages]. *)
Theorem ticks_account (n : nat) : ∀ w,
  ∃ w' (calls : Calls),
    ticks ImageClientInterface_getImages n w = (Returned (), w', calls)
    ∧ this w' = this w
    ∧ parameter_interface w' = parameter_interface w
    ∧ length (List.filter is_LogError calls) + length (broadcasts calls) = n
    ∧ length (maps_published calls) = length (broadcasts calls).
Proof.
  induction n as [|n IH]; intros w.
  - by eexists _, _.
  - assert (Hstep : ∃ w1 (calls1 : Calls),
      timerCallback ImageClientInterface_getImages w = (Returned (), w1, calls1)
      ∧ this w1 = this w
      ∧ parameter_interface w1 = parameter_interface w
      ∧ length (List.filter is_LogError calls1) + length (broadcasts calls1) = 1
      ∧ length (maps_published calls1) = length (broadcasts calls1)).
    { destruct (timerCallback_cases w)
        as [[_ ->] | [(request & detail & c & _ & ->) | (request & result & c & _ & ->)]];
        eexists _, _; (split; [reflexivity|]); split_and!; try done.
      all: destruct (publish_calls_only (map_to_list (images_ result)))
             as (_ & Hm & Hb & Hl & _).
      - unfold broadcasts in *. cbn. by rewrite List.filter_app, Hl, omap_app, Hb.
      - unfold maps_published, broadcasts in *. cbn. by rewrite !omap_app, Hm, Hb. }
    destruct Hstep as (w1 & calls1 & Hrun & Hthis1 & Hpar1 & Hcount1 & Hmaps1).
    destruct (IH w1) as (w' & calls2 & Hrest & Hthis & Hpar & Hcount & Hmaps).
    exists w', (calls1 ++ calls2). split_and!.
    + cbn [ticks]. unfold mbind, M_bind. by rewrite Hrun, Hrest.
    + congruence.
    + congruence.
    + unfold broadcasts in *.
      rewrite List.filter_app, omap_app, !length_app. lia.
    + unfold maps_published, broadcasts in *.
      rewrite !omap_app, !length_app. lia.
Qed.

(** X13: once [initialize] has run, the guard of [timerCallback] is never
    taken: over any number of ticks, whatever the image client answers, the
    message of the guard is not logged. *)
Theorem guard_silent_after_initialize (n : nat) w :
  let guard : Call (TransformStamped:=TransformStamped) :=
    LogError "No image request message generated. Returning." in
  ∃ w1 (calls1 : Calls) w2 (calls2 : Calls),
    initialize createImageSources toSpotImageSourceName w
      = (Returned true, w1, calls1)
    ∧ ticks ImageClientInterface_getImages n w1 = (Returned (), w2, calls2)
    ∧ guard ∉ calls1 ++ calls2.
Proof.
  intros guard.
  assert (Hticks : ∀ k w0 request,
    image_request_message_ (this w0) = Some request →
    ∃ w' (calls : Calls),
      ticks ImageClientInterface_getImages k w0 = (Returned (), w', calls)
      ∧ guard ∉ calls).
  { induction k as [|k IH]; intros w0 request Hsome.
    - eexists _, _. split; [reflexivity|]. apply not_elem_of_nil.
    - destruct (timerCallback_cases w0)
        as [[Hnone _] | [(r & detail & c & _ & Hrun) | (r & result & c & _ & Hrun)]];
        [congruence| |];
        destruct (IH (with_image_client c w0) request Hsome)
          as (w' & calls2 & Hrest & Hnotin);
        eexists _, _;
        (split; [cbn [ticks]; unfold mbind, M_bind; by rewrite Hrun, Hrest|]).
      + intros [Hin|Hin]%elem_of_app; [|done].
        apply elem_of_cons in Hin as [Heq|Hin]; [discriminate Heq|].
        apply elem_of_cons in Hin as [Heq|Hin]; [|by apply elem_of_nil in Hin].
        apply (guard_message_differs detail). unfold guard in Heq. congruence.
      + intros [Hin|Hin]%elem_of_app; [|done].
        apply elem_of_cons in Hin as [Heq|Hin]; [discriminate Heq|].
        apply elem_of_cons in Hin as [Heq|Hin]; [discriminate Heq|].
        apply elem_of_app in Hin as [Hin|Hin].
        * apply list_elem_of_fmap in Hin as ([] & Heq & _). discriminate Heq.
        * apply elem_of_cons in Hin as [Heq|Hin]; [discriminate Heq|].
          by apply elem_of_nil in Hin. }
  destruct (Hticks n
              (with_image_request_message
                 (request_built_in createImageSources toSpotImageSourceName w) w)
              _ eq_refl)
    as (w2 & calls2 & Hrun & Hnotin).
  eexists _, _, w2, calls2. split_and!; [apply initialize_run|exact Hrun|].
  intros [Hin|Hin]%elem_of_app; [|done].
  apply elem_of_cons in Hin as [Heq|Hin]; [discriminate Heq|].
  apply elem_of_cons in Hin as [Heq|Hin]; [discriminate Heq|].
  by apply elem_of_nil in Hin.
Qed.

End PublisherBehaviour.

(** * The further theorems at concrete inputs *)
Section MoreExamples.
Import Fake.

Lemma createImageRequest_without_rgb_witness :
  createImageRequest toSpotImageSourceName
    (createImageSources false true true true) true (Double.of_Z 70) false
  = createImageRequest toSpotImageSourceName
      (createImageSources false true true true) true (Double.of_Z 30) true.
Proof.
  apply createImageRequest_without_rgb.
  repeat constructor; discriminate.
Defined.

Lemma createImageRequest_with_rgb_witness :
  Double.of_Z 70 = Double.of_Z (7 * 10) ∧ false = negb true.
Proof.
  apply (createImageRequest_with_rgb toSpotImageSourceName
           (createImageSources true true false false) true).
  - apply Exists_cons_hd. reflexivity.
  - reflexivity.
Defined.

Lemma Fake_toSpotImageSourceName_inj : Inj (=) (=) toSpotImageSourceName.
Proof. intros [[] []] [[] []] Heq; (reflexivity || discriminate Heq). Defined.

Lemma createImageRequest_names_NoDup_witness :
  NoDup (image_source_name
           <$> image_requests
                 (createImageRequest toSpotImageSourceName
                    (createImageSources true true true true) true
                    (Double.of_Z 70) false)).
Proof.
  apply createImageRequest_names_NoDup.
  - exact Fake_toSpotImageSourceName_inj.
  - refine (bool_decide_unpack _ _). vm_compute. exact I.
Defined.

Lemma ticks_before_initialize_witness :
  ticks getImages 3 constructed
  = (Returned (), constructed,
     replicate 3 (LogError "No image request message generated. Returning.")).
Proof.
  apply ticks_before_initialize. reflexivity.
Defined.

End MoreExamples.
